(** * TSResultify: the [Result] type and the [resultify] adapters

    A shallow embedding of [src/result.ts].  JavaScript values, the
    exceptions of the host language and the settlement of promises are
    modelled explicitly; every method of [_Result], [Pass] and [Fail] and
    both adapters are then transcribed line by line. *)

From Stdlib Require Import ZArith String.
From Stdlib Require Import SpecFloat DecimalString.
Open Scope string_scope.

(** ** The host language *)

(** The constructor an error object was made with ([instanceof]). *)
Inductive error_class : Type :=
  | ErrorC
  | TypeErrorC
  | UnwrappedFailErrorC
  | ExpectFailErrorC
  | NaNErrorC
  | ResultifyFailErrorC
  | UserErrorC (constructor_name : string).

(** An instance of [Error] or of one of its subclasses: its identity and
    the two properties the library reads or writes.  Such an object is
    converted to a string by [Error.prototype.toString]. *)
Record error : Type := mkError {
  err_ref : nat;
  err_class : error_class;
  err_name : string;
  err_message : string
}.

(** JavaScript values.  A number is an IEEE 754 double.  An object that is
    not an [Error] is known by its identity and by how its conversion to a
    string ends (its [toString] may return a string or throw). *)
Inductive value : Type :=
  | VUndefined
  | VNull
  | VBoolean (b : bool)
  | VNumber (n : spec_float)
  | VBigInt (z : Z)
  | VString (s : string)
  | VSymbol (description : option string)
  | VObject (ref : nat) (conversion : to_string)
  | VError (e : error)
with to_string : Type :=
  | Returns (s : string)
  | Raises (thrown : value).

(** How an evaluation ends: with a result, or with a thrown value. *)
Inductive completion (A : Type) : Type :=
  | Normal (a : A)
  | Throw (v : value).
Arguments Normal {A} a.
Arguments Throw {A} v.

(** What the library takes from the JavaScript engine: the state user code
    may touch, and the digits of a finite non-zero double. *)
Class Host : Type := {
  World : Type;
  Number_toString_finite : bool -> positive -> Z -> string
}.

Section Runtime.
Context {host : Host}.

(** The store: the next free object identity and the rest of the world. *)
Record store : Type := mkStore {
  next_ref : nat;
  world : World
}.

(** Computations: they read and write the store and may throw. *)
Definition M (A : Type) : Type := store -> completion A * store.

Definition ret {A} (a : A) : M A := fun s => (Normal a, s).

Definition throw {A} (v : value) : M A := fun s => (Throw v, s).

Definition bind {A B} (m : M A) (k : A -> M B) : M B :=
  fun s =>
    match m s with
    | (Normal a, s') => k a s'
    | (Throw v, s') => (Throw v, s')
    end.

(** [try { body } catch (err) { handler }] *)
Definition try_catch {A} (body : M A) (handler : value -> M A) : M A :=
  fun s =>
    match body s with
    | (Normal a, s') => (Normal a, s')
    | (Throw v, s') => handler v s'
    end.

(** The store after one allocation. *)
Definition bump (s : store) : store :=
  mkStore (S (next_ref s)) (world s).

(** Allocation of a fresh object identity. *)
Definition alloc : M nat :=
  fun s => (Normal (next_ref s), bump s).

End Runtime.

Declare Scope js_scope.
Delimit Scope js_scope with js.
Notation "x <- m ;; k" := (bind m (fun x => k))
  (at level 61, m at next level, right associativity) : js_scope.
Open Scope js_scope.

Section Conversions.
Context {host : Host}.

(** [Number.isNaN]: true only for the number NaN, no coercion. *)
Definition Number_isNaN (v : value) : bool :=
  match v with
  | VNumber S754_nan => true
  | _ => false
  end.

(** [Number::toString] in radix 10. *)
Definition Number_toString (n : spec_float) : string :=
  match n with
  | S754_nan => "NaN"
  | S754_zero _ => "0"
  | S754_infinity false => "Infinity"
  | S754_infinity true => "-Infinity"
  | S754_finite s m e => Number_toString_finite s m e
  end.

(** [BigInt::toString] in radix 10. *)
Definition BigInt_toString (z : Z) : string :=
  NilZero.string_of_int (Z.to_int z).

(** [Error.prototype.toString]. *)
Definition Error_toString (e : error) : string :=
  if (err_name e =? "")%string then err_message e
  else if (err_message e =? "")%string then err_name e
  else err_name e ++ ": " ++ err_message e.

(** [new TypeError(message)], made by the engine. *)
Definition new_TypeError (message : string) : M error :=
  ref <- alloc ;;
  ret (mkError ref TypeErrorC "TypeError" message).

(** The abstract operation [ToString], which a template literal applies to
    each substitution [${...}]. *)
Definition ToString (v : value) : M string :=
  match v with
  | VUndefined => ret "undefined"
  | VNull => ret "null"
  | VBoolean true => ret "true"
  | VBoolean false => ret "false"
  | VNumber n => ret (Number_toString n)
  | VBigInt z => ret (BigInt_toString z)
  | VString s => ret s
  | VSymbol _ =>
      e <- new_TypeError "Cannot convert a Symbol value to a string" ;;
      throw (VError e)
  | VObject _ (Returns s) => ret s
  | VObject _ (Raises t) => throw t
  | VError e => ret (Error_toString e)
  end.

End Conversions.

(** ** The failure kinds of the library *)

Section Errors.
Context {host : Host}.

(** [class UnwrappedFailError]: the template literal is evaluated before
    [super] makes the object; the field [name] is set afterwards. *)
Definition new_UnwrappedFailError (err : value) : M error :=
  rendered <- ToString err ;;
  ref <- alloc ;;
  ret (mkError ref UnwrappedFailErrorC "UnwrappedFailError"
         ("Attempted to unwrap Fail with inner error = " ++ rendered ++ ")")).

(** [class ExpectFailError]. *)
Definition new_ExpectFailError (val : value) : M error :=
  rendered <- ToString val ;;
  ref <- alloc ;;
  ret (mkError ref ExpectFailErrorC "ExpectFailError"
         ("Expected variant Fail, got Pass with inner value = " ++ rendered ++ ")")).

(** [class NaNError]: [super()] is called without a message, so [message] is
    the empty string of [Error.prototype]; then [this.name = "NaNError"]. *)
Definition new_NaNError : M error :=
  ref <- alloc ;;
  ret (mkError ref NaNErrorC "NaNError" "").

(** [class ResultifyFailError]. *)
Definition new_ResultifyFailError (value : value) : M error :=
  rendered <- ToString value ;;
  ref <- alloc ;;
  ret (mkError ref ResultifyFailErrorC "ResultifyFailError"
         ("Failed resultify threw non-error value: " ++ rendered)).

End Errors.

(** ** The [Result] type *)

(** [type Result<T, E> = Pass<T> | Fail<E>] *)
Inductive Result (T E : Type) : Type :=
  | Pass (value : T)
  | Fail (error : E).
Arguments Pass {T E} value.
Arguments Fail {T E} error.

(** The type parameters are erased when the program runs: a payload of any
    type is a JavaScript value. *)
Class JsValue (A : Type) : Type := js : A -> value.

#[export] Instance JsValue_value : JsValue value := fun v => v.
#[export] Instance JsValue_error : JsValue error := VError.

Section Methods.
Context {host : Host}.
Context {T E : Type} {JsT : JsValue T} {JsE : JsValue E}.

(** [Pass.passed] returns [true], [Fail.passed] returns [false]. *)
Definition passed (this : Result T E) : bool :=
  match this with
  | Pass _ => true
  | Fail _ => false
  end.

(** [failed(): boolean { return !this.passed(); }] *)
Definition failed (this : Result T E) : bool :=
  negb (passed this).

(** [Pass.unwrap] returns [this.value]; [Fail.unwrap] throws
    [new UnwrappedFailError(this.error)]. *)
Definition unwrap (this : Result T E) : M T :=
  match this with
  | Pass value => ret value
  | Fail error =>
      e <- new_UnwrappedFailError (js error) ;;
      throw (VError e)
  end.

(** [Pass.expectFail] throws [new ExpectFailError(this.value)];
    [Fail.expectFail] returns [this.error]. *)
Definition expectFail (this : Result T E) : M E :=
  match this with
  | Pass value =>
      e <- new_ExpectFailError (js value) ;;
      throw (VError e)
  | Fail error => ret error
  end.


Definition map {U} (this : Result T E) (f : T -> M U) : M (Result U E) :=
  if passed this then
    v <- unwrap this ;; u <- f v ;; ret (Pass u)
  else
    e <- expectFail this ;; ret (Fail e).

Definition flatMap {U} (this : Result T E) (f : T -> M (Result U E))
  : M (Result U E) :=
  if passed this then
    v <- unwrap this ;; f v
  else
    e <- expectFail this ;; ret (Fail e).

Definition flatMapErr {F} (this : Result T E) (f : E -> M (Result T F))
  : M (Result T F) :=
  if failed this then
    e <- expectFail this ;; f e
  else
    v <- unwrap this ;; ret (Pass v).

Definition mapErr {F} (this : Result T E) (f : E -> M F) : M (Result T F) :=
  if failed this then
    e <- expectFail this ;; e' <- f e ;; ret (Fail e')
  else
    v <- unwrap this ;; ret (Pass v).

(** The returned union [T | undefined] is untagged: both branches are
    plain JavaScript values. *)
Definition nullify (this : Result T E) : M value :=
  if passed this then
    v <- unwrap this ;; ret (js v)
  else
    ret VUndefined.

(** [andThen = this.flatMap] and [orElse = this.flatMapErr]; the second
    source file spells the two bodies out again, unchanged. *)
Definition andThen {U} := @flatMap U.
Definition orElse {F} := @flatMapErr F.




Definition match_ {R} (this : Result T E) (onPass : T -> M R)
  (onFail : E -> M R) : M R :=
  if passed this then
    v <- unwrap this ;; onPass v
  else
    e <- expectFail this ;; onFail e.

End Methods.

(** ** The adapters *)

Section Adapters.
Context {host : Host}.
Context {A T : Type} {JsT : JsValue T}.

(** [resultify(f, ...args)]: the parameter [args] stands for the whole
    argument list. *)
Definition resultify (f : A -> M T) (args : A) : M (Result T error) :=
  try_catch
    (result <- f args ;;
     if Number_isNaN (js result) then
       e <- new_NaNError ;; throw (VError e)
     else
       ret (Pass result))
    (fun err =>
       match err with
       | VError e => ret (Fail e)
       | _ => e <- new_ResultifyFailError err ;; ret (Fail e)
       end).

End Adapters.

(** How a promise ends; [Pending] is a promise that never settles. *)
Inductive settlement (A : Type) : Type :=
  | Fulfilled (a : A)
  | Rejected (reason : value)
  | Pending.
Arguments Fulfilled {A} a.
Arguments Rejected {A} reason.
Arguments Pending {A}.

Section Promises.
Context {host : Host}.

(** A promise in the making: run from a store, it gives the settlement of
    the promise and the store then. *)
Definition Async (A : Type) : Type := store -> settlement A * store.

(** [p.then(onFulfilled)] *)
Definition then_ {A B} (p : Async A) (onFulfilled : A -> M B) : Async B :=
  fun s =>
    match p s with
    | (Fulfilled a, s') =>
        match onFulfilled a s' with
        | (Normal b, s'') => (Fulfilled b, s'')
        | (Throw v, s'') => (Rejected v, s'')
        end
    | (Rejected v, s') => (Rejected v, s')
    | (Pending, s') => (Pending, s')
    end.

(** [p.catch(onRejected)] *)
Definition catch_ {A} (p : Async A) (onRejected : value -> M A) : Async A :=
  fun s =>
    match p s with
    | (Fulfilled a, s') => (Fulfilled a, s')
    | (Rejected v, s') =>
        match onRejected v s' with
        | (Normal a, s'') => (Fulfilled a, s'')
        | (Throw v', s'') => (Rejected v', s'')
        end
    | (Pending, s') => (Pending, s')
    end.

Context {A T : Type} {JsT : JsValue T}.

(** [resultifyPromise(asyncFn, ...args)].  The call [asyncFn(...args)] gives
    a promise or throws; being in the body of an [async function], a throw
    there rejects the promise that [resultifyPromise] returns, and the two
    handlers are never attached. *)
Definition resultifyPromise (asyncFn : A -> M (settlement T)) (args : A)
  : Async (Result T error) :=
  fun s =>
    match asyncFn args s with
    | (Throw v, s') => (Rejected v, s')
    | (Normal promise, s') =>
        catch_
          (then_ (fun s0 => (promise, s0))
             (fun value =>
                r <- resultify (fun _ : unit => ret value) tt ;;
                if failed r then throw (js value)
                else ret (Pass value)))
          (fun err => resultify (fun _ : unit => throw err) tt)
          s'
    end.

End Promises.

(** ** A host for closed examples *)

(** Digits of a finite double that is an integer (the only finite numbers of
    the examples below): sign, then [m * 2^e] in decimal. *)
Definition integer_digits (s : bool) (m : positive) (e : Z) : string :=
  (if s then "-" else "")
  ++ NilZero.string_of_uint (N.to_uint (Z.to_N (Z.shiftl (Z.pos m) e))).

(** An engine with no user state. *)
Definition demo_host : Host :=
  {| World := unit; Number_toString_finite := integer_digits |}.

Definition demo_store : @store demo_host := @mkStore demo_host 1 tt.

(** The number [42]. *)
Definition forty_two : value := VNumber (S754_finite false 21 1).

(** [() => { throw new NaNError(); }] *)
Definition throw_new_NaNError (_ : unit) : @M demo_host value :=
  e <- new_NaNError ;; throw (VError e).

(** [async () => NaN] *)
Definition resolves_NaN (_ : unit) : @M demo_host (settlement value) :=
  ret (Fulfilled (VNumber S754_nan)).

(** An object whose [toString] throws the string ["boom"]. *)
Definition unprintable : value := VObject 0 (Raises (VString "boom")).

(** ** The predicates of the claims about NaN and about messages *)

Section Predicates.
Context {host : Host}.
Context {T : Type} {JsT : JsValue T}.

(** The adapter ended with [Fail] of an instance of [NaNError]. *)
Definition yields_NaNError (out : completion (Result T error) * store) : Prop :=
  exists e s', out = (Normal (Fail e), s') /\ err_class e = NaNErrorC.

(** The adapted function returned the number NaN. *)
Definition returns_NaN (out : completion T * store) : Prop :=
  exists v s', out = (Normal v, s') /\ js v = VNumber S754_nan.

(** The adapted function threw an instance of [NaNError]. *)
Definition throws_NaNError (out : completion T * store) : Prop :=
  exists e s', out = (Throw (VError e), s') /\ err_class e = NaNErrorC.

(** [typeof v === "number"] *)
Definition is_number (v : value) : bool :=
  match v with
  | VNumber _ => true
  | _ => false
  end.

(** The failure kinds the module exports. *)
Inductive failure_kind : Type :=
  | UnwrappedFailErrorK
  | ExpectFailErrorK
  | NaNErrorK
  | ResultifyFailErrorK.

(** [new K(arg)]; the constructor of [NaNError] takes no argument. *)
Definition construct (k : failure_kind) (arg : value) : M error :=
  match k with
  | UnwrappedFailErrorK => new_UnwrappedFailError arg
  | ExpectFailErrorK => new_ExpectFailError arg
  | NaNErrorK => new_NaNError
  | ResultifyFailErrorK => new_ResultifyFailError arg
  end.

(** The name of the class. *)
Definition class_name (k : failure_kind) : string :=
  match k with
  | UnwrappedFailErrorK => "UnwrappedFailError"
  | ExpectFailErrorK => "ExpectFailError"
  | NaNErrorK => "NaNError"
  | ResultifyFailErrorK => "ResultifyFailError"
  end.

End Predicates.

(** ** Laws of the computations *)

Section MonadLaws.
Context {host : Host}.

Lemma bind_ret_l {A B} (a : A) (k : A -> M B) (s : store) :
  (x <- ret a ;; k x) s = k a s.
Proof. reflexivity. Qed.

Lemma bind_throw {A B} (v : value) (k : A -> M B) (s : store) :
  (x <- throw v ;; k x) s = (Throw v, s).
Proof. reflexivity. Qed.

Lemma bind_assoc {A B C} (m : M A) (k : A -> M B) (h : B -> M C) (s : store) :
  (y <- (x <- m ;; k x) ;; h y) s = (x <- m ;; y <- k x ;; h y) s.
Proof.
  unfold bind. destruct (m s) as [[a | v] s1]; reflexivity.
Qed.

Lemma bind_normal {A B} (m : M A) (k : A -> M B) s a s1 :
  m s = (Normal a, s1) -> (x <- m ;; k x) s = k a s1.
Proof. intros Hm. unfold bind. now rewrite Hm. Qed.

Lemma bind_thrown {A B} (m : M A) (k : A -> M B) s v s1 :
  m s = (Throw v, s1) -> (x <- m ;; k x) s = (Throw v, s1).
Proof. intros Hm. unfold bind. now rewrite Hm. Qed.

End MonadLaws.

(** ** Conversion to a string *)

Section ToStringFacts.
Context {host : Host}.

(** A symbol has no conversion to a string: [ToString] throws a new
    [TypeError]. *)
Lemma ToString_Symbol (d : option string) (s : store) :
  ToString (VSymbol d) s =
  (Throw (VError (mkError (next_ref s) TypeErrorC "TypeError"
                    "Cannot convert a Symbol value to a string")),
   bump s).
Proof. reflexivity. Qed.

(** An object whose [toString] throws makes [ToString] throw the same. *)
Lemma ToString_Raises (ref : nat) (t : value) (s : store) :
  ToString (VObject ref (Raises t)) s = (Throw t, s).
Proof. reflexivity. Qed.

(** Apart from the [TypeError] a symbol needs, [ToString] leaves the store
    alone when it returns. *)
Lemma ToString_Normal_store (v : value) (s s1 : store) (str : string) :
  ToString v s = (Normal str, s1) -> s1 = s.
Proof.
  destruct v as [ | | [|] | n | z | x | d | ref [x | t] | e ];
    cbn; intros H; inversion H; reflexivity.
Qed.

Lemma ToString_NaN (s : store) :
  ToString (VNumber S754_nan) s = (Normal "NaN", s).
Proof. reflexivity. Qed.

End ToStringFacts.

(** ** The accessors *)

Section Accessors.
Context {host : Host}.
Context {T E : Type} {JsT : JsValue T} {JsE : JsValue E}.

Lemma unwrap_Pass (v : T) (s : store) :
  unwrap (@Pass T E v) s = (Normal v, s).
Proof. reflexivity. Qed.

Lemma expectFail_Fail (e : E) (s : store) :
  expectFail (@Fail T E e) s = (Normal e, s).
Proof. reflexivity. Qed.

(** When the stored error has a string conversion, [unwrap] on a [Fail]
    throws an [UnwrappedFailError] whose message holds that string. *)
Lemma unwrap_Fail_rendered (e : E) (s : store) (str : string) :
  ToString (js e) s = (Normal str, s) ->
  unwrap (@Fail T E e) s =
  (Throw (VError (mkError (next_ref s) UnwrappedFailErrorC "UnwrappedFailError"
                    ("Attempted to unwrap Fail with inner error = " ++ str ++ ")"))),
   bump s).
Proof.
  intros Hstr. unfold unwrap, new_UnwrappedFailError, bind. now rewrite Hstr.
Qed.

(** When the stored value has a string conversion, [expectFail] on a [Pass]
    throws an [ExpectFailError] whose message holds that string. *)
Lemma expectFail_Pass_rendered (v : T) (s : store) (str : string) :
  ToString (js v) s = (Normal str, s) ->
  expectFail (@Pass T E v) s =
  (Throw (VError (mkError (next_ref s) ExpectFailErrorC "ExpectFailError"
                    ("Expected variant Fail, got Pass with inner value = " ++ str ++ ")"))),
   bump s).
Proof.
  intros Hstr. unfold expectFail, new_ExpectFailError, bind. now rewrite Hstr.
Qed.

(** The mismatched accessor never returns, whatever the payload. *)
Lemma unwrap_Fail_never_returns (e : E) (s : store) :
  exists t s', unwrap (@Fail T E e) s = (Throw t, s').
Proof.
  unfold unwrap, new_UnwrappedFailError, bind.
  destruct (ToString (js e) s) as [[str | t] s1];
    do 2 eexists; reflexivity.
Qed.

Lemma expectFail_Pass_never_returns (v : T) (s : store) :
  exists t s', expectFail (@Pass T E v) s = (Throw t, s').
Proof.
  unfold expectFail, new_ExpectFailError, bind.
  destruct (ToString (js v) s) as [[str | t] s1];
    do 2 eexists; reflexivity.
Qed.

(** When the conversion of the stored error throws, [unwrap] on a [Fail]
    throws what the conversion threw, and no [UnwrappedFailError] is made. *)
Lemma unwrap_Fail_unrendered (e : E) (s s1 : store) (t : value) :
  ToString (js e) s = (Throw t, s1) ->
  unwrap (@Fail T E e) s = (Throw t, s1).
Proof.
  intros Hstr. unfold unwrap, new_UnwrappedFailError, bind. now rewrite Hstr.
Qed.

Lemma expectFail_Pass_unrendered (v : T) (s s1 : store) (t : value) :
  ToString (js v) s = (Throw t, s1) ->
  expectFail (@Pass T E v) s = (Throw t, s1).
Proof.
  intros Hstr. unfold expectFail, new_ExpectFailError, bind. now rewrite Hstr.
Qed.

End Accessors.

Section AccessorClaims.
Context {host : Host}.

(** C5.  [Pass(v).unwrap()] and [Fail(e).expectFail()] return the payload,
    but the mismatched accessor on a payload that is a symbol does not throw
    its misuse error: building the message of the [UnwrappedFailError]
    (resp. [ExpectFailError]) throws a [TypeError], and that is what the
    caller receives. *)
Theorem mismatched_accessor_on_Symbol (d : option string) (s : store) :
  let type_error :=
    mkError (next_ref s) TypeErrorC "TypeError"
      "Cannot convert a Symbol value to a string" in
  unwrap (@Fail value value (VSymbol d)) s = (Throw (VError type_error), bump s)
  /\ expectFail (@Pass value value (VSymbol d)) s
     = (Throw (VError type_error), bump s)
  /\ err_class type_error <> UnwrappedFailErrorC
  /\ err_class type_error <> ExpectFailErrorC.
Proof.
  cbn. repeat split; try reflexivity; discriminate.
Qed.

(** C7.  [passed] and [failed] are complementary on every [Result]:
    [Pass(v)] passed and did not fail, [Fail(e)] failed and did not pass,
    and the two are never both true. *)
Theorem passed_failed_complementary (T E : Type) :
  (forall v : T, passed (@Pass T E v) = true /\ failed (@Pass T E v) = false)
  /\ (forall e : E, passed (@Fail T E e) = false /\ failed (@Fail T E e) = true)
  /\ (forall r : Result T E,
        failed r = negb (passed r) /\ andb (passed r) (failed r) = false).
Proof.
  split; [ | split ].
  - intros v. split; reflexivity.
  - intros e. split; reflexivity.
  - intros [v | e]; split; reflexivity.
Qed.

(** C10.  [nullify] gives [undefined] for a [Pass] that holds [undefined],
    exactly as it does for every [Fail]. *)
Theorem nullify_Pass_undefined_is_Fail (E : Type) (JsE : JsValue E)
  (e : E) (s : store) :
  nullify (@Pass value E VUndefined) s = (Normal VUndefined, s)
  /\ nullify (@Fail value E e) s = (Normal VUndefined, s)
  /\ nullify (@Pass value E VUndefined) s = nullify (@Fail value E e) s.
Proof.
  repeat split; reflexivity.
Qed.

End AccessorClaims.

(** ** Chaining *)

Section Chaining.
Context {host : Host}.
Context {T U V E : Type}.
Context {JsT : JsValue T} {JsU : JsValue U} {JsV : JsValue V} {JsE : JsValue E}.

Lemma flatMap_Pass (v : T) (f : T -> M (Result U E)) (s : store) :
  flatMap (Pass v) f s = f v s.
Proof. reflexivity. Qed.

Lemma flatMap_Fail (e : E) (f : T -> M (Result U E)) (s : store) :
  flatMap (Fail e) f s = (Normal (Fail e), s).
Proof. reflexivity. Qed.

(** C8.  Chaining is associative: [a.flatMap(f).flatMap(g)] and
    [a.flatMap(x => f(x).flatMap(g))] end alike, with the same [Result]
    (variant and payload) or the same thrown value, and the same store; so
    do the two with [andThen]. *)
Theorem flatMap_assoc (a : Result T E) (f : T -> M (Result U E))
  (g : U -> M (Result V E)) (s : store) :
  (r <- flatMap a f ;; flatMap r g) s
  = flatMap a (fun x => r <- f x ;; flatMap r g) s
  /\ (r <- andThen a f ;; andThen r g) s
     = andThen a (fun x => r <- f x ;; andThen r g) s.
Proof.
  unfold andThen.
  assert (H : (r <- flatMap a f ;; flatMap r g) s
              = flatMap a (fun x => r <- f x ;; flatMap r g) s).
  { destruct a as [v | e].
    - unfold bind at 1. rewrite !flatMap_Pass. reflexivity.
    - unfold bind at 1. rewrite !flatMap_Fail. reflexivity. }
  split; exact H.
Qed.

End Chaining.

(** ** The synchronous adapter *)

Section Resultify.
Context {host : Host}.
Context {A T : Type} {JsT : JsValue T}.
Variables (f : A -> M T) (args : A).

(** [f] returns something that is not the number NaN: [Pass] of it. *)
Lemma resultify_returns (s s' : store) (v : T) :
  f args s = (Normal v, s') ->
  Number_isNaN (js v) = false ->
  resultify f args s = (Normal (Pass v), s').
Proof.
  intros Hf Hnan. unfold resultify, try_catch, bind.
  rewrite Hf, Hnan. reflexivity.
Qed.

(** [f] returns the number NaN: [Fail] of a new [NaNError]. *)
Lemma resultify_returns_NaN (s s' : store) (v : T) :
  f args s = (Normal v, s') ->
  Number_isNaN (js v) = true ->
  resultify f args s =
  (Normal (Fail (mkError (next_ref s') NaNErrorC "NaNError" "")), bump s').
Proof.
  intros Hf Hnan. unfold resultify, try_catch, bind.
  rewrite Hf, Hnan. reflexivity.
Qed.

(** [f] throws an [Error]: [Fail] of that very error. *)
Lemma resultify_throws_Error (s s' : store) (e : error) :
  f args s = (Throw (VError e), s') ->
  resultify f args s = (Normal (Fail e), s').
Proof.
  intros Hf. unfold resultify, try_catch, bind.
  rewrite Hf. reflexivity.
Qed.

(** What the [catch] block does with a thrown value that is no [Error]. *)
Lemma resultify_throws_other (s s' : store) (v : value) :
  f args s = (Throw v, s') ->
  (forall e, v <> VError e) ->
  resultify f args s =
  (e <- new_ResultifyFailError v ;; ret (Fail e)) s'.
Proof.
  intros Hf Hv. unfold resultify, try_catch. unfold bind at 1.
  rewrite Hf. destruct v; try reflexivity. now elim (Hv e).
Qed.

(** [f] throws a value that is no [Error] and has a string conversion:
    [Fail] of a new [ResultifyFailError] whose message ends with it. *)
Lemma resultify_throws_rendered (s s' : store) (v : value) (str : string) :
  f args s = (Throw v, s') ->
  (forall e, v <> VError e) ->
  ToString v s' = (Normal str, s') ->
  resultify f args s =
  (Normal (Fail (mkError (next_ref s') ResultifyFailErrorC "ResultifyFailError"
                   ("Failed resultify threw non-error value: " ++ str))),
   bump s').
Proof.
  intros Hf Hv Hstr. rewrite (resultify_throws_other s s' v Hf Hv).
  unfold new_ResultifyFailError, bind. rewrite Hstr. reflexivity.
Qed.

(** [f] throws a value that is no [Error] and whose string conversion
    throws: the [catch] block throws in its turn, out of [resultify]. *)
Lemma resultify_throws_unrendered (s s' s1 : store) (v t : value) :
  f args s = (Throw v, s') ->
  (forall e, v <> VError e) ->
  ToString v s' = (Throw t, s1) ->
  resultify f args s = (Throw t, s1).
Proof.
  intros Hf Hv Hstr. rewrite (resultify_throws_other s s' v Hf Hv).
  unfold new_ResultifyFailError, bind. rewrite Hstr. reflexivity.
Qed.

(** [Number.isNaN] holds of the number NaN alone. *)
Lemma Number_isNaN_spec (v : value) :
  Number_isNaN v = true <-> v = VNumber S754_nan.
Proof.
  split.
  - destruct v as [ | | b | [ z | i | | sg m e ] | z | x | d | r c | e ];
      cbn; intros H; try discriminate; reflexivity.
  - intros ->. reflexivity.
Qed.

Lemma Number_isNaN_is_number (v : value) :
  Number_isNaN v = true -> is_number v = true.
Proof.
  intros H. apply Number_isNaN_spec in H. subst. reflexivity.
Qed.

End Resultify.

Section ResultifyClaims.
Context {host : Host}.

(** C2.  [resultify] gives [Pass] of a returned value that is not NaN and
    [Fail] of the very [Error] thrown, but a thrown symbol (not an [Error])
    does not come back as [Fail(ResultifyFailError)]: building the message
    of the [ResultifyFailError] throws a [TypeError] inside the [catch]
    block, and [resultify] throws it. *)
Theorem resultify_throws_Symbol (d : option string) (s : store) :
  resultify (fun _ : unit => @throw _ value (VSymbol d)) tt s
  = (Throw (VError (mkError (next_ref s) TypeErrorC "TypeError"
                      "Cannot convert a Symbol value to a string")),
     bump s).
Proof.
  apply resultify_throws_unrendered with (s' := s) (v := VSymbol d).
  - reflexivity.
  - discriminate.
  - apply ToString_Symbol.
Qed.

Context {A T : Type} {JsT : JsValue T}.

(** C6, as amended.  [resultify] gives [Fail] of a [NaNError] exactly when
    the function returned the number NaN or itself threw a [NaNError]; and
    a returned value that is not a number always comes back as [Pass]. *)
Theorem resultify_NaNError_origin (f : A -> M T) (args : A) (s : store) :
  (yields_NaNError (resultify f args s)
   <-> returns_NaN (f args s) \/ throws_NaNError (f args s))
  /\ (forall v s', f args s = (Normal v, s') -> is_number (js v) = false ->
        resultify f args s = (Normal (Pass v), s')).
Proof.
  split; [ split | ].
  - intros (e & s1 & Hres & Hclass).
    destruct (f args s) as [[v | t] s'] eqn:Hf.
    + left. exists v, s'. split; [ reflexivity | ].
      destruct (Number_isNaN (js v)) eqn:Hnan.
      * exact (proj1 (Number_isNaN_spec (js v)) Hnan).
      * rewrite (resultify_returns f args s s' v Hf Hnan) in Hres.
        discriminate.
    + right. destruct t as [ | | b | n | z | x | d | r c | e' ].
      9: { rewrite (resultify_throws_Error f args s s' e' Hf) in Hres.
           inversion Hres; subst. exists e, s1. split; [ reflexivity | assumption ]. }
      all: exfalso;
        match type of Hf with
        | _ = (Throw ?v, _) =>
            assert (Hv : forall x, v <> VError x) by discriminate;
            rewrite (resultify_throws_other f args s s' v Hf Hv) in Hres;
            unfold new_ResultifyFailError, bind in Hres;
            destruct (ToString v s') as [[str | t'] s2];
            cbn in Hres; inversion Hres; subst; discriminate
        end.
  - intros [ (v & s' & Hf & Hv) | (e & s' & Hf & Hclass) ].
    + exists (mkError (next_ref s') NaNErrorC "NaNError" ""), (bump s').
      split; [ | reflexivity ].
      apply (resultify_returns_NaN f args s s' v Hf).
      exact (proj2 (Number_isNaN_spec (js v)) Hv).
    + exists e, s'. split; [ | assumption ].
      now apply resultify_throws_Error.
  - intros v s' Hf Hnum. apply (resultify_returns f args s s' v Hf).
    destruct (Number_isNaN (js v)) eqn:Hnan; [ | reflexivity ].
    apply Number_isNaN_is_number in Hnan. congruence.
Qed.

End ResultifyClaims.

(** C6, as stated, fails: a function that throws a [NaNError] of its own
    makes [resultify] give [Fail] of a [NaNError], though the function did
    not return at all. *)
Lemma resultify_NaNError_without_NaN :
  ~ (forall (f : unit -> @M demo_host value) (args : unit) (s : @store demo_host),
       yields_NaNError (resultify f args s) <-> returns_NaN (f args s)).
Proof.
  intros Hclaim.
  destruct (Hclaim throw_new_NaNError tt demo_store) as [Hif _].
  destruct Hif as (v & s' & Hf & _).
  - exists (mkError 1 NaNErrorC "NaNError" ""), (bump demo_store).
    split; reflexivity.
  - discriminate Hf.
Qed.

(** ** The asynchronous adapter *)

Section ResultifyPromise.
Context {host : Host}.
Context {A T : Type} {JsT : JsValue T}.
Variables (asyncFn : A -> M (settlement T)) (args : A).

(** The promise is fulfilled with something that is not the number NaN:
    the returned promise is fulfilled with [Pass] of it. *)
Lemma resultifyPromise_fulfilled (s s' : store) (v : T) :
  asyncFn args s = (Normal (Fulfilled v), s') ->
  Number_isNaN (js v) = false ->
  resultifyPromise asyncFn args s = (Fulfilled (Pass v), s').
Proof.
  intros Hf Hnan. unfold resultifyPromise, catch_, then_. rewrite Hf.
  unfold bind at 1.
  rewrite (resultify_returns (fun _ : unit => ret v) tt s' s' v eq_refl Hnan).
  reflexivity.
Qed.

(** The promise is rejected: the returned promise ends as
    [resultify(() => { throw err; })] ends, fulfilled with what it returns
    or rejected with what it throws. *)
Lemma resultifyPromise_rejected (s s' : store) (err : value) :
  asyncFn args s = (Normal (Rejected err), s') ->
  resultifyPromise asyncFn args s =
  match resultify (fun _ : unit => @throw _ T err) tt s' with
  | (Normal r, s1) => (Fulfilled r, s1)
  | (Throw t, s1) => (Rejected t, s1)
  end.
Proof.
  intros Hf. unfold resultifyPromise, catch_, then_. rewrite Hf. reflexivity.
Qed.

(** The promise is rejected with an [Error]: fulfilled with [Fail] of that
    very error. *)
Lemma resultifyPromise_rejected_Error (s s' : store) (e : error) :
  asyncFn args s = (Normal (Rejected (VError e)), s') ->
  resultifyPromise asyncFn args s = (Fulfilled (Fail e), s').
Proof.
  intros Hf. rewrite (resultifyPromise_rejected s s' _ Hf).
  rewrite (resultify_throws_Error (fun _ : unit => @throw _ T (VError e)) tt
             s' s' e eq_refl).
  reflexivity.
Qed.

(** The promise is rejected with a value that is no [Error] and has a
    string conversion: fulfilled with [Fail] of a new [ResultifyFailError]
    whose message ends with it. *)
Lemma resultifyPromise_rejected_rendered (s s' : store) (v : value)
  (str : string) :
  asyncFn args s = (Normal (Rejected v), s') ->
  (forall e, v <> VError e) ->
  ToString v s' = (Normal str, s') ->
  resultifyPromise asyncFn args s =
  (Fulfilled
     (Fail (mkError (next_ref s') ResultifyFailErrorC "ResultifyFailError"
              ("Failed resultify threw non-error value: " ++ str))),
   bump s').
Proof.
  intros Hf Hv Hstr. rewrite (resultifyPromise_rejected s s' _ Hf).
  rewrite (resultify_throws_rendered (fun _ : unit => @throw _ T v) tt
             s' s' v str eq_refl Hv Hstr).
  reflexivity.
Qed.

(** A promise that never settles gives one that never settles. *)
Lemma resultifyPromise_pending (s s' : store) :
  asyncFn args s = (Normal Pending, s') ->
  resultifyPromise asyncFn args s = (Pending, s').
Proof.
  intros Hf. unfold resultifyPromise, catch_, then_. rewrite Hf. reflexivity.
Qed.

(** [asyncFn] throws before it has a promise to return: the returned
    promise is rejected with what was thrown. *)
Lemma resultifyPromise_thrown (s s' : store) (v : value) :
  asyncFn args s = (Throw v, s') ->
  resultifyPromise asyncFn args s = (Rejected v, s').
Proof.
  intros Hf. unfold resultifyPromise. rewrite Hf. reflexivity.
Qed.

(** C1.  A promise fulfilled with a value that is not NaN gives [Pass] of
    it, but one fulfilled with the number NaN does not give
    [Fail(NaNError)]: the [then] callback throws the number itself, the
    [catch] callback takes it for a thrown value that is no [Error], and
    the promise is fulfilled with [Fail] of a [ResultifyFailError] whose
    message says NaN was thrown. *)
Theorem resultifyPromise_fulfilled_NaN (s s' : store) (v : T) :
  asyncFn args s = (Normal (Fulfilled v), s') ->
  js v = VNumber S754_nan ->
  resultifyPromise asyncFn args s =
  (Fulfilled
     (Fail (mkError (S (next_ref s')) ResultifyFailErrorC "ResultifyFailError"
              "Failed resultify threw non-error value: NaN")),
   bump (bump s')).
Proof.
  intros Hf Hv. unfold resultifyPromise, catch_, then_. rewrite Hf.
  unfold bind at 1.
  rewrite (resultify_returns_NaN (fun _ : unit => ret v) tt s' s' v eq_refl)
    by (rewrite Hv; reflexivity).
  cbn. rewrite Hv.
  rewrite (resultify_throws_rendered
             (fun _ : unit => @throw _ T (VNumber S754_nan)) tt
             (bump s') (bump s') (VNumber S754_nan) "NaN" eq_refl)
    by (discriminate || reflexivity).
  reflexivity.
Qed.

End ResultifyPromise.

Section EscapeClaims.
Context {host : Host}.

(** C3.  A rejection is classified as [resultify] classifies a throw, and
    a rejection with an [Error] or with a string gives the [Fail] the claim
    says; but a rejection with a symbol (not an [Error]) does not give a
    promise fulfilled with [Fail]: the [catch] callback throws a
    [TypeError], and the returned promise is rejected with it. *)
Theorem resultifyPromise_rejected_Symbol (d : option string) (s : store) :
  resultifyPromise
    (fun _ : unit => ret (@Rejected value (VSymbol d))) tt s
  = (Rejected (VError (mkError (next_ref s) TypeErrorC "TypeError"
                         "Cannot convert a Symbol value to a string")),
     bump s).
Proof.
  rewrite (resultifyPromise_rejected _ tt s s (VSymbol d) eq_refl).
  rewrite (resultify_throws_unrendered
             (fun _ : unit => @throw _ value (VSymbol d)) tt s s (bump s)
             (VSymbol d) _ eq_refl)
    by (discriminate || apply ToString_Symbol).
  reflexivity.
Qed.

(** C4.  The adapters do let a thrown value escape.  When [f] throws a
    value that is no [Error] and whose string conversion throws [t],
    [resultify] throws [t]; when the promise is rejected with such a value,
    the promise of [resultifyPromise] is rejected with [t]; and when
    [asyncFn] throws instead of returning a promise, the promise of
    [resultifyPromise] is rejected with what it threw. *)
Theorem adapters_let_throw_escape (v t : value) (s s1 : store) :
  (forall e, v <> VError e) ->
  ToString v s = (Throw t, s1) ->
  resultify (fun _ : unit => @throw _ value v) tt s = (Throw t, s1)
  /\ resultifyPromise (fun _ : unit => ret (@Rejected value v)) tt s
     = (Rejected t, s1)
  /\ resultifyPromise (fun _ : unit => @throw _ (settlement value) v) tt s
     = (Rejected v, s).
Proof.
  intros Hv Hstr.
  assert (Hsync : resultify (fun _ : unit => @throw _ value v) tt s
                  = (Throw t, s1)).
  { exact (resultify_throws_unrendered _ tt s s s1 v t eq_refl Hv Hstr). }
  split; [ exact Hsync | split ].
  - rewrite (resultifyPromise_rejected _ tt s s v eq_refl).
    rewrite Hsync. reflexivity.
  - exact (resultifyPromise_thrown _ tt s s v eq_refl).
Qed.

End EscapeClaims.

(** ** The failure kinds *)

Section FailureKinds.
Context {host : Host}.

Lemma append_nonempty (prefix rest : string) :
  prefix <> "" -> prefix ++ rest <> "".
Proof.
  destruct prefix as [ | c prefix ]; [ congruence | discriminate ].
Qed.

(** A failure kind can be constructed from every argument that has a
    string conversion. *)
Lemma construct_rendered (k : failure_kind) (arg : value) (s : store)
  (str : string) :
  ToString arg s = (Normal str, s) ->
  exists e, construct k arg s = (Normal e, bump s).
Proof.
  intros Hstr.
  destruct k; cbn;
    unfold new_UnwrappedFailError, new_ExpectFailError, new_NaNError,
      new_ResultifyFailError, bind;
    rewrite ?Hstr; eexists; reflexivity.
Qed.

(** C9, as amended.  Every failure kind, once constructed, has its class
    name for [name], whatever the argument; the message is not empty for
    [UnwrappedFailError], [ExpectFailError] and [ResultifyFailError], and
    it is the empty string for [NaNError]. *)
Theorem failure_kind_name_and_message (k : failure_kind) (arg : value)
  (s s' : store) (e : error) :
  construct k arg s = (Normal e, s') ->
  err_name e = class_name k
  /\ (k <> NaNErrorK -> err_message e <> "")
  /\ (k = NaNErrorK -> err_message e = "").
Proof.
  intros Hnew.
  destruct k; cbn in Hnew;
    unfold new_UnwrappedFailError, new_ExpectFailError, new_NaNError,
      new_ResultifyFailError, bind in Hnew;
    try (destruct (ToString arg s) as [[str | t] s1]; [ | discriminate ]);
    cbn in Hnew; inversion Hnew; subst; cbn;
    (split; [ reflexivity | split ]);
    try discriminate; try congruence; intros _; discriminate.
Qed.

End FailureKinds.

(** C9, as stated, fails: [new NaNError()] has the empty message. *)
Lemma NaNError_message_is_empty :
  ~ (forall (k : failure_kind) (arg : value) (s s' : @store demo_host)
       (e : error),
       construct k arg s = (Normal e, s') -> err_message e <> "").
Proof.
  intros Hclaim.
  apply (Hclaim NaNErrorK VUndefined demo_store (bump demo_store)
           (mkError 1 NaNErrorC "NaNError" "")); reflexivity.
Qed.

(** ** The theorems at concrete inputs *)

Lemma resultifyPromise_fulfilled_NaN_witness :
  resolves_NaN tt demo_store
  = (Normal (Fulfilled (VNumber S754_nan)), demo_store)
  /\ js (VNumber S754_nan) = VNumber S754_nan
  /\ resultifyPromise resolves_NaN tt demo_store
     = (Fulfilled
          (Fail (mkError 2 ResultifyFailErrorC "ResultifyFailError"
                   "Failed resultify threw non-error value: NaN")),
        @mkStore demo_host 3 tt).
Proof.
  split; [ reflexivity | split; [ reflexivity | ] ].
  apply (resultifyPromise_fulfilled_NaN resolves_NaN tt demo_store demo_store
           (VNumber S754_nan)); reflexivity.
Defined.

Lemma adapters_let_throw_escape_witness :
  (forall e, unprintable <> VError e)
  /\ @ToString demo_host unprintable demo_store
     = (Throw (VString "boom"), demo_store)
  /\ resultify (fun _ : unit => @throw _ value unprintable) tt demo_store
     = (Throw (VString "boom"), demo_store)
  /\ resultifyPromise (fun _ : unit => ret (@Rejected value unprintable)) tt
       demo_store
     = (Rejected (VString "boom"), demo_store)
  /\ resultifyPromise
       (fun _ : unit => @throw _ (settlement value) unprintable) tt demo_store
     = (Rejected unprintable, demo_store).
Proof.
  split; [ discriminate | split; [ reflexivity | ] ].
  apply (@adapters_let_throw_escape demo_host unprintable (VString "boom")
           demo_store demo_store); [ discriminate | reflexivity ].
Defined.

Lemma failure_kind_name_and_message_witness :
  @construct demo_host ResultifyFailErrorK (VString "boom") demo_store
  = (Normal (mkError 1 ResultifyFailErrorC "ResultifyFailError"
               "Failed resultify threw non-error value: boom"),
     @mkStore demo_host 2 tt)
  /\ "ResultifyFailError" = class_name ResultifyFailErrorK
  /\ (ResultifyFailErrorK <> NaNErrorK ->
      "Failed resultify threw non-error value: boom" <> "")
  /\ (ResultifyFailErrorK = NaNErrorK ->
      "Failed resultify threw non-error value: boom" = "").
Proof.
  split; [ reflexivity | ].
  apply (@failure_kind_name_and_message demo_host ResultifyFailErrorK
           (VString "boom") demo_store (@mkStore demo_host 2 tt)
           (mkError 1 ResultifyFailErrorC "ResultifyFailError"
              "Failed resultify threw non-error value: boom")).
  reflexivity.
Defined.

(** The examples of the documentation and of the specification. *)

Example resultify_returns_42 :
  resultify (fun _ : unit => ret forty_two) tt demo_store
  = (Normal (Pass forty_two), demo_store).
Proof. reflexivity. Qed.

Example resultify_returns_NaN_number :
  resultify (fun _ : unit => ret (VNumber S754_nan)) tt demo_store
  = (Normal (Fail (mkError 1 NaNErrorC "NaNError" "")), bump demo_store).
Proof. reflexivity. Qed.

Example resultify_returns_NaN_string :
  resultify (fun _ : unit => ret (VString "NaN")) tt demo_store
  = (Normal (Pass (VString "NaN")), demo_store).
Proof. reflexivity. Qed.

Example resultify_throws_boom :
  resultify (fun _ : unit => @throw _ value (VString "boom")) tt demo_store
  = (Normal (Fail (mkError 1 ResultifyFailErrorC "ResultifyFailError"
                     "Failed resultify threw non-error value: boom")),
     bump demo_store).
Proof. reflexivity. Qed.

Example resultify_throws_fallible :
  resultify
    (fun _ : unit =>
       @throw _ value (VError (mkError 0 ErrorC "Error" "I'm fallible")))
    tt demo_store
  = (Normal (Fail (mkError 0 ErrorC "Error" "I'm fallible")), demo_store).
Proof. reflexivity. Qed.

Example resultifyPromise_resolves_7 :
  resultifyPromise
    (fun _ : unit => ret (Fulfilled (VNumber (S754_finite false 7 0)))) tt
    demo_store
  = (Fulfilled (Pass (VNumber (S754_finite false 7 0))), demo_store).
Proof. reflexivity. Qed.

Example resultifyPromise_rejects_x :
  resultifyPromise (fun _ : unit => ret (@Rejected value (VString "x"))) tt
    demo_store
  = (Fulfilled
       (Fail (mkError 1 ResultifyFailErrorC "ResultifyFailError"
                "Failed resultify threw non-error value: x")),
     bump demo_store).
Proof. reflexivity. Qed.

Example unwrap_Fail_of_Error :
  unwrap (@Fail value error (mkError 0 ErrorC "Error" "boom")) demo_store
  = (Throw (VError (mkError 1 UnwrappedFailErrorC "UnwrappedFailError"
                      "Attempted to unwrap Fail with inner error = Error: boom)")),
     bump demo_store).
Proof. reflexivity. Qed.

Example expectFail_Pass_of_42 :
  expectFail (@Pass value value forty_two) demo_store
  = (Throw (VError (mkError 1 ExpectFailErrorC "ExpectFailError"
                      "Expected variant Fail, got Pass with inner value = 42)")),
     bump demo_store).
Proof. reflexivity. Qed.

(** ** The transformers: [map], [mapErr], [flatMap], [flatMapErr] *)

Section Transformers.
Context {host : Host}.
Context {T U V E F G : Type}.
Context {JsT : JsValue T} {JsU : JsValue U} {JsV : JsValue V}.
Context {JsE : JsValue E} {JsF : JsValue F} {JsG : JsValue G}.


(** Mapping the identity function, on either side, gives back a [Result]
    of the same variant and payload and leaves the store alone. *)
Theorem map_mapErr_identity (a : Result T E) (s : store) :
  map a (fun x => ret x) s = (Normal a, s)
  /\ mapErr a (fun e => ret e) s = (Normal a, s).
Proof. destruct a; split; reflexivity. Qed.

(** Two [map]s in a row are one [map] with the two callbacks in sequence,
    effects and exceptions of the callbacks included. *)
Theorem map_compose (a : Result T E) (f : T -> M U) (g : U -> M V)
  (s : store) :
  (r <- map a f ;; map r g) s = map a (fun x => y <- f x ;; g y) s.
Proof.
  destruct a as [v | e]; [ | reflexivity ].
  unfold map, bind; cbn.
  destruct (f v s) as [[u | t] s1]; reflexivity.
Qed.

(** Two [mapErr]s in a row are one [mapErr] with the two callbacks in
    sequence. *)
Theorem mapErr_compose (a : Result T E) (f : E -> M F) (g : F -> M G)
  (s : store) :
  (r <- mapErr a f ;; mapErr r g) s = mapErr a (fun x => y <- f x ;; g y) s.
Proof.
  destruct a as [v | e]; [ reflexivity | ].
  unfold mapErr, bind; cbn.
  destruct (f e s) as [[u | t] s1]; reflexivity.
Qed.

(** [map] and [mapErr] act on different variants, so they can be applied in
    either order: only the callback of the variant at hand runs. *)
Theorem map_mapErr_commute (a : Result T E) (f : T -> M U) (g : E -> M F)
  (s : store) :
  (r <- map a f ;; mapErr r g) s = (r <- mapErr a g ;; map r f) s.
Proof.
  destruct a as [v | e]; unfold map, mapErr, bind; cbn.
  - destruct (f v s) as [[u | t] s1]; reflexivity.
  - destruct (g e s) as [[u | t] s1]; reflexivity.
Qed.

(** [map] and [mapErr] never change the variant: what they return passed
    exactly when the [Result] they were called on did. *)
Theorem map_mapErr_keep_variant (a : Result T E) (f : T -> M U)
  (g : E -> M F) (s s1 s2 : store) (r1 : Result U E) (r2 : Result T F) :
  map a f s = (Normal r1, s1) ->
  mapErr a g s = (Normal r2, s2) ->
  passed r1 = passed a /\ passed r2 = passed a.
Proof.
  destruct a as [v | e]; unfold map, mapErr, bind; cbn.
  - destruct (f v s) as [[u | t] s']; intros H1 H2;
      inversion H1; inversion H2; subst; split; reflexivity.
  - destruct (g e s) as [[u | t] s']; intros H1 H2;
      inversion H1; inversion H2; subst; split; reflexivity.
Qed.

(** [map] and [flatMap] throw only what their callback throws: neither ever
    throws a misuse error of its own, and an exception of the callback is
    not turned into a [Fail]. *)
Theorem map_flatMap_throw_iff (a : Result T E) (f : T -> M U)
  (h : T -> M (Result U E)) (s s' : store) (t : value) :
  (map a f s = (Throw t, s') <-> exists v, a = Pass v /\ f v s = (Throw t, s'))
  /\ (flatMap a h s = (Throw t, s')
      <-> exists v, a = Pass v /\ h v s = (Throw t, s')).
Proof.
  split; split.
  - destruct a as [v | e]; unfold map, bind; cbn.
    + destruct (f v s) as [[u | t'] s1] eqn:Hf; intros H; inversion H; subst.
      exists v. split; [ reflexivity | assumption ].
    + discriminate.
  - intros (v & -> & Hf). unfold map, bind; cbn. now rewrite Hf.
  - destruct a as [v | e]; cbn.
    + intros H. exists v. split; [ reflexivity | exact H ].
    + discriminate.
  - intros (v & -> & Hf). exact Hf.
Qed.

(** [mapErr] and [flatMapErr] throw only what their callback throws. *)
Theorem mapErr_flatMapErr_throw_iff (a : Result T E) (g : E -> M F)
  (h : E -> M (Result T F)) (s s' : store) (t : value) :
  (mapErr a g s = (Throw t, s')
   <-> exists e, a = Fail e /\ g e s = (Throw t, s'))
  /\ (flatMapErr a h s = (Throw t, s')
      <-> exists e, a = Fail e /\ h e s = (Throw t, s')).
Proof.
  split; split.
  - destruct a as [v | e]; unfold mapErr, bind; cbn.
    + discriminate.
    + destruct (g e s) as [[u | t'] s1] eqn:Hg; intros H; inversion H; subst.
      exists e. split; [ reflexivity | assumption ].
  - intros (e & -> & Hg). unfold mapErr, bind; cbn. now rewrite Hg.
  - destruct a as [v | e]; cbn.
    + discriminate.
    + intros H. exists e. split; [ reflexivity | exact H ].
  - intros (e & -> & Hg). exact Hg.
Qed.

(** Chaining with the constructor of the same side changes nothing:
    [a.flatMap(x => new Pass(x))] and [a.flatMapErr(e => new Fail(e))] give
    back [a]. *)
Theorem flatMap_right_identity (a : Result T E) (s : store) :
  flatMap a (fun x => ret (Pass x)) s = (Normal a, s)
  /\ flatMapErr a (fun e => ret (Fail e)) s = (Normal a, s).
Proof. destruct a; split; reflexivity. Qed.

(** Recovery is associative: [a.flatMapErr(f).flatMapErr(g)] and
    [a.flatMapErr(e => f(e).flatMapErr(g))] end alike; so do the two with
    [orElse]. *)
Theorem flatMapErr_assoc (a : Result T E) (f : E -> M (Result T F))
  (g : F -> M (Result T G)) (s : store) :
  (r <- flatMapErr a f ;; flatMapErr r g) s
  = flatMapErr a (fun x => r <- f x ;; flatMapErr r g) s
  /\ (r <- orElse a f ;; orElse r g) s
     = orElse a (fun x => r <- f x ;; orElse r g) s.
Proof.
  unfold orElse. destruct a as [v | e]; split; reflexivity.
Qed.

(** [map] is [flatMap] with a callback that wraps its result in [Pass], and
    [mapErr] is [flatMapErr] with one that wraps it in [Fail]. *)
Theorem map_as_flatMap (a : Result T E) (f : T -> M U) (g : E -> M F)
  (s : store) :
  map a f s = flatMap a (fun v => u <- f v ;; ret (Pass u)) s
  /\ mapErr a g s = flatMapErr a (fun e => e' <- g e ;; ret (Fail e')) s.
Proof. destruct a; split; reflexivity. Qed.

End Transformers.

(** ** Case analysis, [nullify] and the inspectors *)

Section Inspectors.
Context {host : Host}.
Context {T U E R : Type}.
Context {JsT : JsValue T} {JsU : JsValue U} {JsE : JsValue E}.

(** [match] runs exactly one of its two callbacks, on the stored payload:
    [onPass] on a [Pass], [onFail] on a [Fail]; nothing else happens. *)
Theorem match_runs_one_branch (v : T) (e : E) (onPass : T -> M R)
  (onFail : E -> M R) (s : store) :
  match_ (@Pass T E v) onPass onFail s = onPass v s
  /\ match_ (@Fail T E e) onPass onFail s = onFail e s.
Proof. split; reflexivity. Qed.

(** A [match] after a [map] is one [match] whose [onPass] runs the mapping
    callback first; after a [flatMap] it is one [match] whose [onPass] runs
    the chained callback and matches its result. *)
Theorem match_after_map (a : Result T E) (f : T -> M U)
  (h : T -> M (Result U E)) (onPass : U -> M R) (onFail : E -> M R)
  (s : store) :
  (r <- map a f ;; match_ r onPass onFail) s
  = match_ a (fun v => u <- f v ;; onPass u) onFail s
  /\ (r <- flatMap a h ;; match_ r onPass onFail) s
     = match_ a (fun v => r <- h v ;; match_ r onPass onFail) onFail s.
Proof.
  destruct a as [v | e]; split; try reflexivity.
  unfold map, match_, bind; cbn.
  destruct (f v s) as [[u | t] s1]; reflexivity.
Qed.

(** [nullify] tells a [Pass] from a [Fail] exactly when the payload of the
    [Pass] is not [undefined]. *)
Theorem nullify_distinguishes (v : T) (e : E) (s : store) :
  nullify (@Pass T E v) s = nullify (@Fail T E e) s <-> js v = VUndefined.
Proof.
  cbn. unfold ret. split.
  - intros H. inversion H. reflexivity.
  - intros ->. reflexivity.
Qed.




End Inspectors.

(** ** How the adapters end, case by case *)

Section AdapterCases.
Context {host : Host}.
Context {A T : Type} {JsT : JsValue T}.

(** Every way [resultify] can end, read off what [f] does. *)
Lemma resultify_cases (f : A -> M T) (args : A) (s : store) :
  resultify f args s =
  match f args s with
  | (Normal v, s') =>
      if Number_isNaN (js v)
      then (Normal (Fail (mkError (next_ref s') NaNErrorC "NaNError" "")),
            bump s')
      else (Normal (Pass v), s')
  | (Throw (VError e), s') => (Normal (Fail e), s')
  | (Throw v, s') =>
      match ToString v s' with
      | (Normal str, s1) =>
          (Normal
             (Fail (mkError (next_ref s1) ResultifyFailErrorC
                      "ResultifyFailError"
                      ("Failed resultify threw non-error value: " ++ str))),
           bump s1)
      | (Throw t, s1) => (Throw t, s1)
      end
  end.
Proof.
  unfold resultify, try_catch. unfold bind at 1.
  destruct (f args s) as [[v | t] s'].
  - destruct (Number_isNaN (js v)); reflexivity.
  - destruct t; try reflexivity;
      unfold new_ResultifyFailError, bind;
      match goal with
      | |- context [ToString ?v ?s] =>
          destruct (ToString v s) as [[str | t'] s1]; reflexivity
      end.
Qed.

(** [resultify] returns [Pass(v)] exactly when [f] returned [v] and [v] is
    not the number NaN; it then leaves the store as [f] left it. *)
Theorem resultify_Pass_iff (f : A -> M T) (args : A) (s s' : store) (v : T) :
  resultify f args s = (Normal (Pass v), s')
  <-> f args s = (Normal v, s') /\ Number_isNaN (js v) = false.
Proof.
  rewrite resultify_cases. split.
  - destruct (f args s) as [[v0 | t] s0].
    + destruct (Number_isNaN (js v0)) eqn:Hnan; intros H; inversion H; subst.
      split; [ reflexivity | assumption ].
    + destruct t; try discriminate;
        match goal with
        | |- context [ToString ?x ?y] =>
            destruct (ToString x y) as [[str | t'] s1]; discriminate
        end.
  - intros [-> ->]. reflexivity.
Qed.



(** Round trip: when [f] returns a value that is not NaN, unwrapping what
    [resultify] gives is that value, and so is [nullify] of it. *)
Theorem resultify_unwrap_roundtrip (f : A -> M T) (args : A) (s s' : store)
  (v : T) :
  f args s = (Normal v, s') ->
  Number_isNaN (js v) = false ->
  (r <- resultify f args ;; unwrap r) s = (Normal v, s')
  /\ (r <- resultify f args ;; nullify r) s = (Normal (js v), s').
Proof.
  intros Hf Hnan.
  split; rewrite (bind_normal _ _ s _ s' (resultify_returns f args s s' v Hf Hnan));
    reflexivity.
Qed.


End AdapterCases.

Section PromiseCases.
Context {host : Host}.
Context {A T : Type} {JsT : JsValue T}.

(** Every way the promise of [resultifyPromise] can end, read off what
    [asyncFn] and its promise do. *)
Lemma resultifyPromise_cases (asyncFn : A -> M (settlement T)) (args : A)
  (s : store) :
  resultifyPromise asyncFn args s =
  match asyncFn args s with
  | (Throw v, s') => (Rejected v, s')
  | (Normal Pending, s') => (Pending, s')
  | (Normal (Rejected err), s') =>
      match resultify (fun _ : unit => @throw _ T err) tt s' with
      | (Normal r, s1) => (Fulfilled r, s1)
      | (Throw t, s1) => (Rejected t, s1)
      end
  | (Normal (Fulfilled v), s') =>
      if Number_isNaN (js v)
      then match resultify (fun _ : unit => @throw _ T (js v)) tt (bump s') with
           | (Normal r, s1) => (Fulfilled r, s1)
           | (Throw t, s1) => (Rejected t, s1)
           end
      else (Fulfilled (Pass v), s')
  end.
Proof.
  unfold resultifyPromise, catch_, then_.
  destruct (asyncFn args s) as [[[v | err | ] | t] s']; try reflexivity.
  unfold bind at 1.
  rewrite (resultify_cases (fun _ : unit => ret v) tt s'). cbn.
  destruct (Number_isNaN (js v)); reflexivity.
Qed.

(** A thrown value never comes back as [Pass]. *)
Lemma resultify_throw_not_Pass (err : value) (s s1 : store) (v : T) :
  resultify (fun _ : unit => @throw _ T err) tt s <> (Normal (Pass v), s1).
Proof.
  rewrite resultify_cases. cbn.
  destruct err; try discriminate;
    match goal with
    | |- context [ToString ?x ?y] =>
        destruct (ToString x y) as [[str | t'] s2]; discriminate
    end.
Qed.

(** The promise of [resultifyPromise] is fulfilled with [Pass(v)] exactly
    when the promise of [asyncFn] was fulfilled with [v] and [v] is not the
    number NaN. *)
Theorem resultifyPromise_Pass_iff (asyncFn : A -> M (settlement T))
  (args : A) (s s' : store) (v : T) :
  resultifyPromise asyncFn args s = (Fulfilled (Pass v), s')
  <-> asyncFn args s = (Normal (Fulfilled v), s')
      /\ Number_isNaN (js v) = false.
Proof.
  rewrite resultifyPromise_cases. split.
  - destruct (asyncFn args s) as [[[v0 | err | ] | t0] s0]; try discriminate.
    + destruct (Number_isNaN (js v0)) eqn:Hnan.
      * destruct (resultify _ tt (bump s0)) as [[r | t] s1] eqn:Hr;
          intros H; inversion H; subst.
        now apply resultify_throw_not_Pass in Hr.
      * intros H; inversion H; subst. split; [ reflexivity | assumption ].
    + destruct (resultify _ tt s0) as [[r | t] s1] eqn:Hr;
        intros H; inversion H; subst.
      now apply resultify_throw_not_Pass in Hr.
  - intros [-> ->]. reflexivity.
Qed.

(** The promise of [resultifyPromise] never settles exactly when the
    promise of [asyncFn] never settles: no timeout is added, and none of
    the other cases is left hanging. *)
Theorem resultifyPromise_Pending_iff (asyncFn : A -> M (settlement T))
  (args : A) (s s' : store) :
  resultifyPromise asyncFn args s = (Pending, s')
  <-> asyncFn args s = (Normal Pending, s').
Proof.
  rewrite resultifyPromise_cases. split.
  - destruct (asyncFn args s) as [[[v0 | err | ] | t0] s0]; try discriminate.
    + destruct (Number_isNaN (js v0)); [ | discriminate ].
      destruct (resultify _ tt (bump s0)) as [[r | t] s1]; discriminate.
    + destruct (resultify _ tt s0) as [[r | t] s1]; discriminate.
    + intros H; inversion H; reflexivity.
  - intros ->. reflexivity.
Qed.


End PromiseCases.

(** ** The further theorems at concrete inputs *)

Lemma map_mapErr_keep_variant_witness :
  @map demo_host value value _ _ value (Pass forty_two)
    (fun _ => ret (VString "x")) demo_store
  = (Normal (Pass (VString "x")), demo_store)
  /\ @mapErr demo_host value value _ _ value (Pass forty_two)
       (fun e => ret e) demo_store
     = (Normal (Pass forty_two), demo_store)
  /\ passed (@Pass value value (VString "x"))
     = passed (@Pass value value forty_two)
  /\ passed (@Pass value value forty_two)
     = passed (@Pass value value forty_two).
Proof.
  split; [ reflexivity | split; [ reflexivity | ] ].
  apply (@map_mapErr_keep_variant demo_host value value value value _ _
           (Pass forty_two) (fun _ => ret (VString "x")) (fun e => ret e)
           demo_store demo_store demo_store);
    reflexivity.
Defined.

Lemma resultify_unwrap_roundtrip_witness :
  (fun _ : unit => @ret demo_host value forty_two) tt demo_store
  = (Normal forty_two, demo_store)
  /\ Number_isNaN (js forty_two) = false
  /\ (r <- resultify (fun _ : unit => ret forty_two) tt ;; unwrap r) demo_store
     = (Normal forty_two, demo_store)
  /\ (r <- resultify (fun _ : unit => ret forty_two) tt ;; nullify r)
       demo_store
     = (Normal (js forty_two), demo_store).
Proof.
  split; [ reflexivity | split; [ reflexivity | ] ].
  apply (@resultify_unwrap_roundtrip demo_host unit value _
           (fun _ => ret forty_two) tt demo_store demo_store forty_two);
    reflexivity.
Defined.

